(** * pushwoosh-node: the PushwooshClient class of [lib/index.js]

    A shallow embedding of the client (constructor, [handleSuccess],
    [handleRejection], [sendRequest], [parseResponse], [sendMessage],
    [registerDevice], [deleteMessage]) and the properties of its external
    contract.

    JavaScript values are an inductive type, objects are finite maps from
    property names to values, and the effects of a call (the requests handed
    to the transport [got], the invocations of the completion callback, the
    settling of promises) are threaded through a small state-and-exception
    monad. *)

From stdpp Require Import gmap strings list fin_maps pretty.
From Stdlib Require Import ZArith.

#[local] Set Warnings "-register-all".
#[local] Open Scope string_scope.
#[local] Open Scope Z_scope.

(** ** JavaScript values *)

Inductive errkind := KError | KTypeError.

(** Numbers are the integral ones, which is all the client compares against
    ([=== 200]); a function is identified by its source text; [VErr] is an
    instance of [Error] or [TypeError] with its message. *)
Inductive value :=
| VUndefined
| VNull
| VBool (b : bool)
| VNum (n : Z)
| VStr (s : string)
| VArr (l : list value)
| VObj (o : gmap string value)
| VFun (src : string)
| VErr (k : errkind) (msg : string).

Definition errkind_name (k : errkind) : string :=
  match k with KError => "Error" | KTypeError => "TypeError" end.

(** [ToBoolean], as used by [if (x)] and [x || y]. *)
Definition truthy (v : value) : bool :=
  match v with
  | VUndefined | VNull => false
  | VBool b => b
  | VNum n => negb (n =? 0)
  | VStr s => negb (String.eqb s "")
  | _ => true
  end.

Definition join_comma (l : list string) : string :=
  match l with
  | [] => ""
  | x :: xs => fold_left (fun acc y => acc +:+ "," +:+ y) xs x
  end.

(** [ToString], as applied by the substitutions of a template literal, with
    the built-in conversion of each kind of value: an object is taken to
    have no [toString] or [valueOf] of its own, and an integer to print all
    its digits (it is below 10^21). The properties about addresses and
    messages are stated for strings. *)
Fixpoint toString (v : value) : string :=
  match v with
  | VUndefined => "undefined"
  | VNull => "null"
  | VBool true => "true"
  | VBool false => "false"
  | VNum n => pretty n
  | VStr s => s
  | VArr l =>
      join_comma
        (map (fun x => match x with
                       | VUndefined | VNull => ""
                       | _ => toString x
                       end) l)
  | VObj _ => "[object Object]"
  | VFun src => src
  | VErr k msg =>
      if String.eqb msg "" then errkind_name k
      else errkind_name k +:+ ": " +:+ msg
  end.

(** [x === n] for a number literal [n]. *)
Definition strictEqNum (v : value) (n : Z) : bool :=
  match v with VNum m => m =? n | _ => false end.

(** [this.k] on an object given by its own properties. *)
Definition field (o : gmap string value) (k : string) : value :=
  default VUndefined (o !! k).

(** ** lodash *)

Definition isString (v : value) : bool :=
  match v with VStr _ => true | _ => false end.

Definition isNumber (v : value) : bool :=
  match v with VNum _ => true | _ => false end.

Definition isFunction (v : value) : bool :=
  match v with VFun _ => true | _ => false end.

(** The characters of a string, one value for each; a string is the
    sequence of its one-byte characters, which for ASCII text are the code
    units [_.extend] copies. *)
Definition chars (s : string) : list value :=
  map (fun c => VStr (String c EmptyString)) (String.list_ascii_of_string s).

Definition indexed (l : list value) : gmap string value :=
  list_to_map (imap (fun i x => (pretty i, x)) l).

(** The enumerable properties [keysIn] finds on a source of [_.extend]: the
    properties of an object, the indices of an array or of a string, nothing
    on the other values. *)
Definition sourceProps (source : value) : gmap string value :=
  match source with
  | VObj o => o
  | VArr l => indexed l
  | VStr s => indexed (chars s)
  | _ => ∅
  end.

(** [_.extend(object, ...sources)]: each truthy source in turn is copied
    over the destination. *)
Definition extend (object : gmap string value) (sources : list value)
  : gmap string value :=
  fold_left
    (fun acc source => if truthy source then sourceProps source ∪ acc else acc)
    sources object.

(** ** Effects *)

(** What a call does to the outside: it hands an options object to the
    transport [got], or it invokes a function with an argument list. *)
Inductive event :=
| Request (opts : gmap string value)
| Callback (fn : value) (args : list value).

Inductive settled :=
| Resolved (v : value)
| Rejected (e : value).

(** The state a promise executor and the handlers closing over its [resolve]
    and [reject] run in: the events so far and the promise's own state, [None]
    while it is pending. *)
Record pstate := PState { trace : list event; cell : option settled }.

Inductive completion (A : Type) :=
| Normal (a : A)
| Throw (e : value).
Arguments Normal {A} a.
Arguments Throw {A} e.

Definition Exec (A : Type) : Type := pstate -> pstate * completion A.

Definition ret {A} (a : A) : Exec A := fun s => (s, Normal a).

Definition throw {A} (e : value) : Exec A := fun s => (s, Throw e).

Definition bind {A B} (m : Exec A) (k : A -> Exec B) : Exec B :=
  fun s =>
    match m s with
    | (s', Normal a) => k a s'
    | (s', Throw e) => (s', Throw e)
    end.

Declare Scope exec_scope.
Delimit Scope exec_scope with exec.
Notation "x <- c ;; k" := (bind c (fun x => k))
  (at level 100, c at next level, right associativity) : exec_scope.
Notation "c ;;; k" := (bind c (fun _ => k))
  (at level 100, right associativity) : exec_scope.
#[local] Open Scope exec_scope.

Definition emit (e : event) : Exec unit :=
  fun s => (PState (trace s ++ [e]) (cell s), Normal tt).

(** The first of [resolve] and [reject] to be called settles the promise;
    later calls change nothing. The values this client resolves with are
    transport responses and payloads, never thenables. *)
Definition settle (r : settled) : Exec value :=
  fun s =>
    (PState (trace s) (match cell s with None => Some r | Some r0 => Some r0 end),
     Normal VUndefined).

(** [resolve.apply(this, args)] and [reject.apply(this, args)]. *)
Definition resolve (args : list value) : Exec value :=
  settle (Resolved (hd VUndefined args)).

Definition reject (args : list value) : Exec value :=
  settle (Rejected (hd VUndefined args)).

Definition apply_type_error : value :=
  VErr KTypeError "CreateListFromArrayLike called on non-object".

(** The second argument of [Function.prototype.apply] at the call sites of
    this file: an array, or the number [Array.prototype.unshift] returns. *)
Inductive applyArg :=
| ArgList (l : list value)
| ArgNumber (n : Z).

(** [fn.apply(this, argArray)] for a callable [fn]: an array is spread into
    the call, a number is not an object and makes [apply] throw a
    [TypeError]. The callback itself returns normally. *)
Definition fn_apply (fn : value) (argArray : applyArg) : Exec value :=
  match argArray with
  | ArgList l => emit (Callback fn l) ;;; ret VUndefined
  | ArgNumber _ => throw apply_type_error
  end.

(** [args.unshift(x)]: the array becomes [x :: args], the call returns the
    new length. *)
Definition unshift (x : value) (args : list value) : Z * list value :=
  (Z.of_nat (length (x :: args)), x :: args).

(** [new Promise(executor)]: the executor runs at once on a fresh promise; if
    it throws while the promise is pending the promise is rejected with what
    was thrown. The result is the state the promise ends in. *)
Definition Promise_new {A} (executor : Exec A) : Exec (option settled) :=
  fun s =>
    let '(s', c) := executor (PState (trace s) None) in
    (PState (trace s') (cell s),
     Normal (match cell s', c with
             | None, Throw e => Some (Rejected e)
             | st, _ => st
             end)).

(** A handler returns a plain value or a promise; a plain value counts as a
    promise fulfilled with it. *)
Definition returning (m : Exec value) : Exec (option settled) :=
  v <- m ;; ret (Some (Resolved v)).

Definition run_handler (h : Exec (option settled)) : Exec (option settled) :=
  fun s =>
    match h s with
    | (s', Normal p) => (s', Normal p)
    | (s', Throw e) => (s', Normal (Some (Rejected e)))
    end.

(** [p.then(onFulfilled)] and [p.catch(onRejected)]: the handler runs when
    [p] settles its way; the derived promise follows what the handler returns
    and is rejected with what it throws; otherwise the state of [p] passes
    through. *)
Definition then_ (p : option settled) (onFulfilled : value -> Exec (option settled))
  : Exec (option settled) :=
  match p with
  | Some (Resolved v) => run_handler (onFulfilled v)
  | _ => ret p
  end.

Definition catch_ (p : option settled) (onRejected : value -> Exec (option settled))
  : Exec (option settled) :=
  match p with
  | Some (Rejected e) => run_handler (onRejected e)
  | _ => ret p
  end.

(** Reading a property [v.k]: a [TypeError] on [undefined] and [null], the
    own property on an object, and [undefined] elsewhere: none of the names
    this client reads exists on a primitive, an array, a function or an
    error. *)
Definition getProp (v : value) (k : string) : Exec value :=
  match v with
  | VUndefined | VNull =>
      throw (VErr KTypeError
               ("Cannot read properties of " +:+ toString v
                +:+ " (reading '" +:+ k +:+ "')"))
  | VObj o => ret (field o k)
  | _ => ret VUndefined
  end.

(** A top-level call: no event yet. *)
Definition run {A} (m : Exec A) : list event * completion A :=
  let '(s, c) := m (PState [] None) in (trace s, c).

Definition requests (tr : list event) : list (gmap string value) :=
  omap (fun e => match e with Request o => Some o | _ => None end) tr.

Definition callbacks (tr : list event) : list (value * list value) :=
  omap (fun e => match e with Callback f a => Some (f, a) | _ => None end) tr.

(** ** The client *)

Definition defaults : gmap string value :=
  {[ "host" := VStr "cp.pushwoosh.com";
     "url" := VStr "https://cp.pushwoosh.com/json";
     "version" := VStr "1.3" ]}.

Definition configuration_error : value :=
  VErr KError "Pushwoosh Application ID and an Authentication Token must be set".

(** [new PushwooshClient(app, token, options)]: the instance as the map of
    its own properties, or the error thrown. *)
Definition constructor (app token options : value)
  : completion (gmap string value) :=
  let options := if truthy options then options else VObj ∅ in
  if negb (isString app) || negb (isString token) then
    Throw configuration_error
  else
    Normal (extend ∅ [VObj defaults; options;
                      VObj {[ "app" := app; "token" := token ]}]).

(** [handleSuccess(resolve, cb, ...args)]: [args] is what follows the first
    two arguments. *)
Definition handleSuccess (resolve : list value -> Exec value) (cb : value)
    (rest : list value) : Exec value :=
  let args := rest in
  args <- (if isFunction cb then
             let '(len, args) := unshift VNull args in
             fn_apply cb (ArgNumber len) ;;; ret args
           else ret args) ;;
  resolve args.

(** [handleRejection(reject, cb, ...args)]. *)
Definition handleRejection (reject : list value -> Exec value) (cb : value)
    (rest : list value) : Exec value :=
  let args := rest in
  (if isFunction cb then fn_apply cb (ArgList args) else ret VUndefined) ;;;
  reject args.

Definition api_error (status_message : value) : value :=
  VErr KError
    ("Pushwoosh API responded with argument error: " +:+ toString status_message).

Definition push_token_error : value :=
  VErr KError "Device push token is mandatory (string)".

Definition hwid_error : value :=
  VErr KError "Device hwid token is mandatory (string)".

Definition device_type_error : value :=
  VErr KError "Device type is mandatory (number)".

Definition message_id_error : value :=
  VErr KError "Message id is mandatory (string)".

(** The options object [sendRequest] hands to [got]. *)
Definition requestOptions (this : gmap string value) (action data : value)
  : gmap string value :=
  {[ "method" := VStr "POST";
     "url" := VStr ("https://" +:+ toString (field this "host") +:+ "/json/"
                    +:+ toString (field this "version") +:+ "/"
                    +:+ toString action);
     "json" := data;
     "responseType" := VStr "json" ]}.

(** The notification [sendMessage] builds from the caller's options. *)
Definition messageDefaults : gmap string value :=
  {[ "send_date" := VStr "now";
     "ignore_user_timezone" := VBool true;
     "minimize_link" := VNum 0 ]}.

Definition notification (options : value) : gmap string value :=
  extend ∅ [VObj messageDefaults; options].

(** [body.request] of [sendMessage], after the branch on [this.useAppGroup]. *)
Definition messageRequest (this : gmap string value) (options : value)
  : gmap string value :=
  let request : gmap string value :=
    {[ "auth" := field this "token";
       "notifications" := VArr [VObj (notification options)] ]} in
  if truthy (field this "useAppGroup") then
    <[ "application_group" := field this "app" ]> request
  else
    <[ "application" := field this "app" ]> request.

(** The envelope [parseResponse] reads: the HTTP status of the answer and, in
    its body, the status code, the status message and the payload. *)
Record Envelope := {
  httpStatus : Z;
  status_code : Z;
  status_message : string;
  response : value
}.

Definition envelope_value (e : Envelope) : value :=
  VObj {[ "statusCode" := VNum (httpStatus e);
          "body" := VObj {[ "status_code" := VNum (status_code e);
                            "status_message" := VStr (status_message e);
                            "response" := response e ]} ]}.

(** The methods below call one another as the methods of the class. The
    code looks each of them up on the instance, onto which the constructor
    copies every option, so this is what the code does on a client that has
    no own property named after one of them. *)
Definition own_methods (this : gmap string value) : bool :=
  forallb (fun name => bool_decide (this !! name = None))
    ["sendRequest"; "parseResponse"; "handleSuccess"; "handleRejection"].

(** A client with the class's own methods whose [host] and [version] are
    strings, which the address of a request takes as they are. *)
Definition ordinary (this : gmap string value) : bool :=
  own_methods this
  && isString (field this "host") && isString (field this "version").

Section Client.

(** The transport: how [got] settles the promise it returns for a given
    options object. *)
Variable transport : gmap string value -> settled.

Definition got (opts : gmap string value) : Exec (option settled) :=
  emit (Request opts) ;;; ret (Some (transport opts)).

Definition sendRequest (this : gmap string value) (action data cb : value)
  : Exec (option settled) :=
  Promise_new (
    p <- got (requestOptions this action data) ;;
    p <- then_ p (fun response =>
           returning (handleSuccess resolve cb [response])) ;;
    catch_ p (fun error =>
      returning (handleRejection reject cb [error]))).

Definition parseResponse (this : gmap string value) (response cb : value)
  : Exec (option settled) :=
  Promise_new (
    statusCode <- getProp response "statusCode" ;;
    ok <- (if strictEqNum statusCode 200 then
             body <- getProp response "body" ;;
             status_code <- getProp body "status_code" ;;
             ret (strictEqNum status_code 200)
           else ret false) ;;
    if ok then
      body <- getProp response "body" ;;
      payload <- getProp body "response" ;;
      handleSuccess resolve cb [payload]
    else
      body <- getProp response "body" ;;
      status_message <- getProp body "status_message" ;;
      handleRejection reject cb [api_error status_message]).

Definition sendMessage (this : gmap string value) (options cb : value)
  : Exec (option settled) :=
  Promise_new (
    let body : gmap string value :=
      {[ "request" := VObj (messageRequest this options) ]} in
    p <- sendRequest this (VStr "createMessage") (VObj body) VUndefined ;;
    p <- then_ p (fun response => parseResponse this response cb) ;;
    p <- then_ p (fun parsedResponse =>
           returning (handleSuccess resolve cb [parsedResponse])) ;;
    catch_ p (fun error =>
      returning (handleRejection reject cb [error]))).

Definition registerDevice (this : gmap string value) (options cb : value)
  : Exec (option settled) :=
  Promise_new (
    push_token <- getProp options "push_token" ;;
    if negb (isString push_token) then
      handleRejection reject cb [push_token_error]
    else
      hwid <- getProp options "hwid" ;;
      if isString hwid then
        handleRejection reject cb [hwid_error]
      else
        device_type <- getProp options "device_type" ;;
        if isNumber device_type then
          handleRejection reject cb [device_type_error]
        else
          let body : gmap string value :=
            {[ "request" :=
                 VObj (extend ∅ [VObj {[ "application" := field this "app" ]};
                                 options]) ]} in
          p <- sendRequest this (VStr "registerDevice") (VObj body)
                 VUndefined ;;
          p <- then_ p (fun response =>
                 returning (handleSuccess resolve cb [response])) ;;
          p <- catch_ p (fun error =>
                 returning (handleRejection reject cb [error])) ;;
          ret VUndefined).

Definition deleteMessage (this : gmap string value) (code cb : value)
  : Exec (option settled) :=
  Promise_new (
    if negb (isString code) then
      handleRejection reject cb [message_id_error]
    else
      let body : gmap string value :=
        {[ "request" :=
             VObj {[ "auth" := field this "token"; "message" := code ]} ]} in
      p <- sendRequest this (VStr "deleteMessage") (VObj body) VUndefined ;;
      p <- then_ p (fun response =>
             returning (handleSuccess resolve cb [response])) ;;
      p <- catch_ p (fun error =>
             returning (handleRejection reject cb [error])) ;;
      ret VUndefined).

End Client.

(** ** The earlier revision of the class

    The file keeps, after the current class, the revision that sent its
    requests with [request-promise]: its constructor copies the known
    options one by one, its two completion helpers take the last two of
    their arguments, and its [sendMessage] accepts the message as a first
    argument of its own. *)

Module Legacy.

(** [_.takeRight(array, n)]. *)
Definition takeRight (array : list value) (n : nat) : list value :=
  drop (length array - n) array.

(** [_.isObject(v)]. *)
Definition isObject (v : value) : bool :=
  match v with
  | VArr _ | VObj _ | VFun _ | VErr _ _ => true
  | _ => false
  end.

(** [_(object).has(key)]: an own property of the object; the one key this
    revision asks for, [content], is no own property of an array, a
    function or an error. *)
Definition has (object : value) (key : string) : bool :=
  match object with
  | VObj o => bool_decide (is_Some (o !! key))
  | _ => false
  end.

(** [v.k] on a value that is neither [undefined] nor [null]. *)
Definition prop (v : value) (k : string) : value :=
  match v with
  | VObj o => field o k
  | _ => VUndefined
  end.

(** [a || b]. *)
Definition or_else (a b : value) : value := if truthy a then a else b.

Definition constructor (app token options : value)
  : completion (gmap string value) :=
  let options := or_else options (VObj ∅) in
  if negb (isString app) || negb (isString token) then
    Throw configuration_error
  else
    Normal {[ "app" := app;
              "token" := token;
              "host" := or_else (prop options "host") (field defaults "host");
              "version" :=
                or_else (prop options "version") (field defaults "version");
              "useAppGroup" := prop options "useAppGroup";
              "timeout" := or_else (prop options "timeout") (VNum 31000) ]}.

(** [handleSuccess(resolve, cb, ...)]: [arguments] starts with the settling
    function and the callback, and [args] is its last two elements. *)
Definition handleSuccess (resolve : list value -> Exec value) (cb : value)
    (rest : list value) : Exec value :=
  let args := takeRight (VFun "resolve" :: cb :: rest) 2 in
  args <- (if isFunction cb then
             let '(len, args) := unshift VNull args in
             fn_apply cb (ArgNumber len) ;;; ret args
           else ret args) ;;
  resolve args.

Definition handleRejection (reject : list value -> Exec value) (cb : value)
    (rest : list value) : Exec value :=
  let args := takeRight (VFun "reject" :: cb :: rest) 2 in
  (if isFunction cb then fn_apply cb (ArgList args) else ret VUndefined) ;;;
  reject args.

Definition message_error : value :=
  VErr KError "options.message should be provided as a string".

(** The options object [sendRequest] hands to [request-promise]. *)
Definition requestOptions (this : gmap string value) (action data : value)
  : gmap string value :=
  {[ "method" := VStr "POST";
     "json" := VBool true;
     "resolveWithFullResponse" := VBool true;
     "uri" := VStr ("https://" +:+ toString (field this "host") +:+ "/json/"
                    +:+ toString (field this "version") +:+ "/"
                    +:+ toString action);
     "body" := data ]}.

(** The first lines of [sendMessage]: a message object holding a [content]
    becomes the options, a function in the place of the options becomes the
    callback, and the content becomes the message. *)
Definition messageArguments (message options cb : value)
  : value * value * value :=
  if isObject message && has message "content" then
    let cb := if isFunction options then options else cb in
    let options := message in
    let message := prop options "content" in
    (message, options, cb)
  else (message, options, cb).

Definition notification (message options : value) : gmap string value :=
  let defaults : gmap string value :=
    {[ "send_date" := VStr "now";
       "ignore_user_timezone" := VBool true;
       "content" := message ]} in
  extend ∅ [VObj defaults; options; VObj {[ "content" := message ]}].

Definition messageRequest (this : gmap string value) (message options : value)
  : gmap string value :=
  let request : gmap string value :=
    {[ "auth" := field this "token";
       "notifications" := VArr [VObj (notification message options)] ]} in
  if truthy (field this "useAppGroup") then
    <[ "application_group" := field this "app" ]> request
  else
    <[ "application" := field this "app" ]> request.

Section Client.

(** How [request-promise] settles for a given options object. *)
Variable transport : gmap string value -> settled.

Definition rp (opts : gmap string value) : Exec (option settled) :=
  emit (Request opts) ;;; ret (Some (transport opts)).

Definition sendRequest (this : gmap string value) (action data cb : value)
  : Exec (option settled) :=
  Promise_new (
    p <- rp (requestOptions this action data) ;;
    p <- then_ p (fun response =>
           returning (handleSuccess resolve cb [response])) ;;
    catch_ p (fun error =>
      returning (handleRejection reject cb [error]))).

Definition sendMessage (this : gmap string value) (message options cb : value)
  : Exec (option settled) :=
  let '(message, options, cb) := messageArguments message options cb in
  Promise_new (
    if negb (isString message) then
      handleRejection reject cb [message_error]
    else
      let body : gmap string value :=
        {[ "request" := VObj (messageRequest this message options) ]} in
      p <- sendRequest this (VStr "createMessage") (VObj body) VUndefined ;;
      p <- then_ p (fun response =>
             returning (handleSuccess resolve cb [response])) ;;
      p <- catch_ p (fun error =>
             returning (handleRejection reject cb [error])) ;;
      ret VUndefined).

End Client.

End Legacy.

(** ** Sample clients *)

(** The client [new PushwooshClient("APP", "TOK")], the same client with
    [useAppGroup: true], and with [timeout: 5000]. *)
Definition plain_client : gmap string value :=
  {[ "app" := VStr "APP"; "token" := VStr "TOK";
     "host" := VStr "cp.pushwoosh.com";
     "url" := VStr "https://cp.pushwoosh.com/json";
     "version" := VStr "1.3" ]}.

Definition group_client : gmap string value :=
  <[ "useAppGroup" := VBool true ]> plain_client.

Definition timeout_client : gmap string value :=
  <[ "timeout" := VNum 5000 ]> plain_client.

(** An answer of the API with an error status in its body. *)
Definition error_body : gmap string value :=
  {[ "status_code" := VNum 210;
     "status_message" := VStr "Application not found" ]}.

Definition error_answer : gmap string value :=
  {[ "statusCode" := VNum 200; "body" := VObj error_body ]}.

(** The properties copied from an array or from a string sit under
    decimal indices, so they never collide with a named property. *)
Definition starts_with_digit (s : string) : Prop :=
  match s with
  | String c _ => exists d : N, c = pretty_N_char d
  | EmptyString => False
  end.

(** ** Proof support *)

(** Closes an equation between closed terms by evaluation. *)
Ltac by_vm :=
  lazymatch goal with
  | |- @eq ?T _ ?b => vm_cast_no_check (@eq_refl T b)
  end.

Ltac exec_core :=
  cbv beta iota zeta delta
    [run sendRequest sendMessage registerDevice deleteMessage
     got handleSuccess handleRejection Promise_new returning run_handler
     then_ catch_ getProp bind ret throw emit settle resolve reject fn_apply
     unshift trace cell hd app fst snd].

(** Unfolds a call down to the transport's answer and the tests on the
    caller's values; the inner [sendRequest] of a method is called without a
    callback. *)
Ltac exec_unfold_outer :=
  exec_core;
  try change (isFunction VUndefined) with false;
  cbv beta iota.

Ltac exec_unfold :=
  exec_unfold_outer; unfold parseResponse; exec_unfold_outer.

(** Case analysis on whatever value a stuck test of the unfolded call looks
    at. *)
Ltac exec_cases :=
  repeat
    (cbv beta iota;
     match goal with
     | |- context [match ?t with Resolved _ => _ | Rejected _ => _ end] =>
         destruct t
     | |- context [if isFunction ?c then _ else _] => destruct (isFunction c)
     | |- context [if strictEqNum ?v ?n then _ else _] =>
         destruct (strictEqNum v n)
     | |- context [match field ?o ?k with _ => _ end] => destruct (field o k)
     | |- context [match ?x with _ => _ end] => is_var x; destruct x
     end).

(** Case analysis on every test the unfolded call is stuck on. *)
Ltac exec_split :=
  repeat
    (cbv beta iota;
     match goal with
     | |- context [match ?t with Resolved _ => _ | Rejected _ => _ end] =>
         destruct t
     | |- context [if ?b then _ else _] => destruct b
     | |- context [match field ?o ?k with _ => _ end] => destruct (field o k)
     | |- context [match ?x with _ => _ end] => is_var x; destruct x
     end).

Ltac legacy_unfold :=
  cbv beta iota zeta delta
    [run Legacy.sendRequest Legacy.sendMessage Legacy.rp
     Legacy.handleSuccess Legacy.handleRejection Legacy.takeRight
     Promise_new returning run_handler then_ catch_ getProp bind ret throw
     emit settle resolve reject fn_apply unshift trace cell hd app fst snd
     length drop Nat.sub];
  try change (isFunction VUndefined) with false;
  cbv beta iota.

Lemma field_lookup (o : gmap string value) k v :
  o !! k = Some v -> field o k = v.
Proof. unfold field. intros ->. reflexivity. Qed.

(** ** The constructor *)

Lemma plain_client_constructed :
  constructor (VStr "APP") (VStr "TOK") VUndefined = Normal plain_client.
Proof. by_vm. Qed.

Lemma group_client_constructed :
  constructor (VStr "APP") (VStr "TOK") (VObj {[ "useAppGroup" := VBool true ]})
  = Normal group_client.
Proof. by_vm. Qed.

Lemma timeout_client_constructed :
  constructor (VStr "APP") (VStr "TOK") (VObj {[ "timeout" := VNum 5000 ]})
  = Normal timeout_client.
Proof. by_vm. Qed.

(** A client built by the constructor keeps the two credentials it was given,
    whatever the options held under those names. *)
Lemma constructor_credentials app token options this :
  constructor app token options = Normal this ->
  field this "app" = app /\ field this "token" = token.
Proof.
  unfold constructor.
  destruct (negb (isString app) || negb (isString token)); [discriminate|].
  intros [= <-]. unfold extend, field. cbn [fold_left truthy sourceProps].
  split.
  - erewrite lookup_union_Some_l; [reflexivity|]. reflexivity.
  - erewrite lookup_union_Some_l; [reflexivity|]. reflexivity.
Qed.

(** C2, counterexample. Construction with an empty application id and an
    empty token succeeds. *)
Lemma constructor_accepts_empty_strings :
  constructor (VStr "") (VStr "") VUndefined
  = Normal (<[ "app" := VStr "" ]> (<[ "token" := VStr "" ]> defaults)).
Proof. by_vm. Qed.

(** C2, as amended. Construction fails, with the configuration error, if and
    only if the application id or the token is not a string; the empty
    string is accepted like any other. *)
Theorem constructor_fails_iff_not_strings app token options :
  (constructor app token options = Throw configuration_error
   <-> ~ (exists a t, app = VStr a /\ token = VStr t))
  /\ (forall e, constructor app token options = Throw e ->
                e = configuration_error)
  /\ (forall a t, exists this,
        constructor (VStr a) (VStr t) options = Normal this).
Proof.
  unfold constructor. repeat split.
  - intros H (a & t & -> & ->). discriminate H.
  - intros H. destruct app, token; try reflexivity.
    exfalso. apply H. eauto.
  - destruct (negb (isString app) || negb (isString token));
      [intros e [= <-]; reflexivity | discriminate].
  - intros a t. eexists. reflexivity.
Qed.

(** ** The completion helpers *)

(** Without a callback function the promise path is the only one, and it is
    taken once. *)
Lemma handleSuccess_no_callback cb args s :
  isFunction cb = false ->
  handleSuccess resolve cb args s = resolve args s.
Proof. intros H. unfold handleSuccess, bind, ret. rewrite H. reflexivity. Qed.

(** With a callback function, [handleSuccess] throws before the callback or
    [resolve] is reached: [apply] is given the length [unshift] returns. *)
Lemma handleSuccess_callback_throws src args s :
  handleSuccess resolve (VFun src) args s = (s, Throw apply_type_error).
Proof. reflexivity. Qed.

(** [handleRejection] invokes the callback with the error, then rejects. *)
Lemma handleRejection_callback src args s :
  handleRejection reject (VFun src) args s =
  (PState (trace s ++ [Callback (VFun src) args])
     (match cell s with
      | None => Some (Rejected (hd VUndefined args))
      | Some r0 => Some r0
      end),
   Normal VUndefined).
Proof. reflexivity. Qed.

(** ** sendRequest *)

(** What [sendRequest] does, by the way the transport settles and by whether
    a callback function was passed. *)
Lemma sendRequest_run transport this action data cb :
  run (sendRequest transport this action data cb) =
  let opts := requestOptions this action data in
  match transport opts with
  | Resolved r =>
      if isFunction cb then
        ([Request opts; Callback cb [apply_type_error]],
         Normal (Some (Rejected apply_type_error)))
      else ([Request opts], Normal (Some (Resolved r)))
  | Rejected e =>
      if isFunction cb then
        ([Request opts; Callback cb [e]], Normal (Some (Rejected e)))
      else ([Request opts], Normal (Some (Rejected e)))
  end.
Proof.
  exec_unfold.
  destruct (transport (requestOptions this action data)) as [r|e];
    destruct (isFunction cb); reflexivity.
Qed.

(** C6, as amended. [sendRequest] hands the transport one options object: a
    POST to [https://{host}/json/{version}/{action}] with the body under
    [json]; the object has no [timeout] property. *)
Theorem sendRequest_single_post transport this host version action data cb :
  this !! "host" = Some (VStr host) ->
  this !! "version" = Some (VStr version) ->
  exists opts,
    requests (run (sendRequest transport this (VStr action) data cb)).1 = [opts]
    /\ opts !! "method" = Some (VStr "POST")
    /\ opts !! "url" =
         Some (VStr ("https://" +:+ host +:+ "/json/" +:+ version +:+ "/"
                     +:+ action))
    /\ opts !! "json" = Some data
    /\ opts !! "timeout" = None.
Proof.
  intros Hhost Hversion.
  exists (requestOptions this (VStr action) data).
  rewrite sendRequest_run. cbv zeta.
  split.
  - destruct (transport _); destruct (isFunction cb); reflexivity.
  - unfold requestOptions, field. rewrite Hhost, Hversion.
    repeat split; reflexivity.
Qed.

Lemma sendRequest_single_post_witness :
  exists opts,
    requests (run (sendRequest (fun _ => Resolved VNull) plain_client
                     (VStr "createMessage") (VObj ∅) VUndefined)).1 = [opts]
    /\ opts !! "method" = Some (VStr "POST")
    /\ opts !! "url" =
         Some (VStr "https://cp.pushwoosh.com/json/1.3/createMessage")
    /\ opts !! "json" = Some (VObj ∅)
    /\ opts !! "timeout" = None.
Proof.
  apply (sendRequest_single_post (fun _ => Resolved VNull) plain_client
           "cp.pushwoosh.com" "1.3" "createMessage" (VObj ∅) VUndefined);
    vm_compute; reflexivity.
Defined.

(** C6, counterexample. A client configured with a timeout of 5000 ms sends
    its request without any [timeout] option: the configured timeout is not
    applied to the transport request. *)
Lemma sendRequest_timeout_not_applied :
  field timeout_client "timeout" = VNum 5000
  /\ (run (sendRequest (fun _ => Resolved VNull) timeout_client
             (VStr "createMessage") (VObj ∅) VUndefined)).1
     = [Request (requestOptions timeout_client (VStr "createMessage") (VObj ∅))]
  /\ requestOptions timeout_client (VStr "createMessage") (VObj ∅) !! "timeout"
     = None.
Proof. repeat split; by_vm. Qed.

(** C4, the code at the failing input. The transport succeeds with [r] and a
    callback function was supplied: the callback is invoked once, with the
    [TypeError] thrown by [handleSuccess] as its only argument, and the
    promise is rejected with that error; the claim has the promise resolve
    and the callback receive [(null, r)]. *)
Theorem sendRequest_success_reaches_callback_as_error this action data src r :
  run (sendRequest (fun _ => Resolved r) this action data (VFun src)) =
  ([Request (requestOptions this action data);
    Callback (VFun src) [apply_type_error]],
   Normal (Some (Rejected apply_type_error))).
Proof. rewrite sendRequest_run. reflexivity. Qed.

(** ** parseResponse *)

(** [parseResponse] on a response object whose [body] is an object. *)
Lemma parseResponse_object this resp body cb s :
  resp !! "body" = Some (VObj body) ->
  parseResponse this (VObj resp) cb s =
  if strictEqNum (field resp "statusCode") 200
     && strictEqNum (field body "status_code") 200
  then
    if isFunction cb then (s, Normal (Some (Rejected apply_type_error)))
    else (s, Normal (Some (Resolved (field body "response"))))
  else
    let e := api_error (field body "status_message") in
    if isFunction cb then
      (PState (trace s ++ [Callback cb [e]]) (cell s),
       Normal (Some (Rejected e)))
    else (s, Normal (Some (Rejected e))).
Proof.
  intros Hbody. apply field_lookup in Hbody.
  exec_unfold. rewrite !Hbody. destruct s as [tr c].
  destruct (strictEqNum (field resp "statusCode") 200);
    destruct (strictEqNum (field body "status_code") 200);
    destruct (isFunction cb); reflexivity.
Qed.

(** [parseResponse] issues no request, whatever it is given. *)
Lemma parseResponse_requests this response cb :
  requests (run (parseResponse this response cb)).1 = [].
Proof. exec_unfold. exec_cases; reflexivity. Qed.

(** Without a callback function [parseResponse] resolves with
    [body.response] when the HTTP status and [body.status_code] are both
    200, and in every other case rejects with the error whose message
    carries [body.status_message]; it issues no request and invokes
    nothing. *)
Lemma parseResponse_without_callback this (e : Envelope) cb :
  own_methods this = true ->
  isFunction cb = false ->
  run (parseResponse this (envelope_value e) cb) =
  ([],
   Normal (Some (if (httpStatus e =? 200) && (status_code e =? 200)
                 then Resolved (response e)
                 else Rejected
                        (VErr KError
                           ("Pushwoosh API responded with argument error: "
                            +:+ status_message e))))).
Proof.
  intros _ Hcb. unfold run, envelope_value.
  rewrite (parseResponse_object this _
             {[ "status_code" := VNum (status_code e);
                "status_message" := VStr (status_message e);
                "response" := response e ]})
    by reflexivity.
  rewrite Hcb.
  replace (field _ "statusCode") with (VNum (httpStatus e)) by reflexivity.
  replace (field _ "status_code") with (VNum (status_code e)) by reflexivity.
  replace (field _ "status_message") with (VStr (status_message e))
    by reflexivity.
  replace (field _ "response") with (response e) by reflexivity.
  cbn [strictEqNum].
  destruct ((httpStatus e =? 200) && (status_code e =? 200)); reflexivity.
Qed.

(** With a callback function the error branch is the same, the callback
    being invoked once with the error before the promise is rejected. *)
Lemma parseResponse_error_status_with_callback this (e : Envelope) src :
  own_methods this = true ->
  (httpStatus e =? 200) && (status_code e =? 200) = false ->
  run (parseResponse this (envelope_value e) (VFun src)) =
  ([Callback (VFun src) [api_error (VStr (status_message e))]],
   Normal (Some (Rejected (api_error (VStr (status_message e)))))).
Proof.
  intros _ Hcodes. unfold run, envelope_value.
  rewrite (parseResponse_object this _
             {[ "status_code" := VNum (status_code e);
                "status_message" := VStr (status_message e);
                "response" := response e ]})
    by reflexivity.
  replace (field _ "statusCode") with (VNum (httpStatus e)) by reflexivity.
  replace (field _ "status_code") with (VNum (status_code e)) by reflexivity.
  replace (field _ "status_message") with (VStr (status_message e))
    by reflexivity.
  cbn [strictEqNum]. rewrite Hcodes. reflexivity.
Qed.

(** C3, the code at the failing input. The HTTP status and
    [body.status_code] are both 200 and a callback function was passed, as
    [sendMessage] passes its own: [handleSuccess] throws inside the
    executor, so the promise is rejected with the [TypeError] and the
    callback is not invoked; the claim has [parseResponse] succeed with
    [body.response]. *)
Theorem parseResponse_success_with_callback_is_rejected
    this (e : Envelope) src :
  own_methods this = true ->
  httpStatus e = 200 ->
  status_code e = 200 ->
  run (parseResponse this (envelope_value e) (VFun src)) =
  ([], Normal (Some (Rejected apply_type_error))).
Proof.
  intros _ Hhttp Hcode. unfold run, envelope_value.
  rewrite (parseResponse_object this _
             {[ "status_code" := VNum (status_code e);
                "status_message" := VStr (status_message e);
                "response" := response e ]})
    by reflexivity.
  replace (field _ "statusCode") with (VNum (httpStatus e)) by reflexivity.
  replace (field _ "status_code") with (VNum (status_code e)) by reflexivity.
  rewrite Hhttp, Hcode. reflexivity.
Qed.

Lemma parseResponse_success_with_callback_is_rejected_witness :
  run (parseResponse plain_client
         (envelope_value (Build_Envelope 200 200 "OK" (VStr "payload")))
         (VFun "done"))
  = ([], Normal (Some (Rejected apply_type_error))).
Proof.
  exact (parseResponse_success_with_callback_is_rejected plain_client
           (Build_Envelope 200 200 "OK" (VStr "payload")) "done"
           eq_refl eq_refl eq_refl).
Defined.

(** ** sendMessage *)

(** Every call of [sendMessage] hands the transport exactly one request, the
    [createMessage] one, whatever the options and however the exchange
    ends. *)
Lemma sendMessage_requests transport this options cb :
  requests (run (sendMessage transport this options cb)).1 =
  [requestOptions this (VStr "createMessage")
     (VObj {[ "request" := VObj (messageRequest this options) ]})].
Proof. exec_unfold. exec_cases; reflexivity. Qed.

(** In [sendMessage] the callback is passed both to [parseResponse] and to
    the outer handlers: when the API answers with an error status the
    callback is invoked twice with the same error. *)
Lemma sendMessage_api_error_calls_back_twice this options src resp body :
  resp !! "body" = Some (VObj body) ->
  strictEqNum (field resp "statusCode") 200
    && strictEqNum (field body "status_code") 200 = false ->
  let e := api_error (field body "status_message") in
  callbacks (run (sendMessage (fun _ => Resolved (VObj resp)) this options
                    (VFun src))).1
  = [(VFun src, [e]); (VFun src, [e])].
Proof.
  intros Hbody Hcodes. exec_unfold_outer.
  rewrite (parseResponse_object _ _ _ _ _ Hbody), Hcodes.
  reflexivity.
Qed.

(** With a callback, a success of the whole [sendMessage] exchange still
    ends in a rejection, the callback receiving the [TypeError] once. *)
Lemma sendMessage_success_with_callback this options src resp body :
  resp !! "body" = Some (VObj body) ->
  strictEqNum (field resp "statusCode") 200
    && strictEqNum (field body "status_code") 200 = true ->
  (run (sendMessage (fun _ => Resolved (VObj resp)) this options (VFun src))).2
  = Normal (Some (Rejected apply_type_error))
  /\ callbacks (run (sendMessage (fun _ => Resolved (VObj resp)) this options
                       (VFun src))).1
     = [(VFun src, [apply_type_error])].
Proof.
  intros Hbody Hcodes. exec_unfold_outer.
  rewrite !(parseResponse_object _ _ _ _ _ Hbody), Hcodes.
  split; reflexivity.
Qed.

(** The notification is the caller's options laid over the defaults. *)
Lemma notification_object (o : gmap string value) :
  notification (VObj o) = o ∪ messageDefaults.
Proof.
  unfold notification, extend. cbn [fold_left truthy sourceProps].
  rewrite (right_id_L ∅ (∪)). reflexivity.
Qed.

Lemma notification_lookup (o : gmap string value) k :
  notification (VObj o) !! k =
  match o !! k with
  | Some v => Some v
  | None => messageDefaults !! k
  end.
Proof.
  rewrite notification_object, lookup_union.
  destruct (o !! k), (messageDefaults !! k); reflexivity.
Qed.

Lemma messageRequest_notifications this options :
  messageRequest this options !! "notifications"
  = Some (VArr [VObj (notification options)]).
Proof.
  unfold messageRequest.
  destruct (truthy (field this "useAppGroup")); by simplify_map_eq.
Qed.

(** A decimal numeral starts with a digit. *)
Lemma pretty_N_go_digit x s :
  starts_with_digit s -> starts_with_digit (pretty_N_go x s).
Proof.
  revert s. induction (N.lt_wf_0 x) as [x _ IH]; intros s Hs.
  destruct (decide (x = 0)%N) as [->|Hx].
  - by rewrite pretty_N_go_0.
  - rewrite pretty_N_go_step by lia.
    apply IH; [apply N.div_lt; lia|]. simpl. eauto.
Qed.

Lemma pretty_nat_digit (i : nat) : starts_with_digit (pretty i).
Proof.
  unfold pretty, pretty_nat, pretty, pretty_N. case_decide as H.
  - exists 0%N. reflexivity.
  - rewrite pretty_N_go_step by lia. apply pretty_N_go_digit. simpl. eauto.
Qed.

Lemma indexed_named l k : ~ starts_with_digit k -> indexed l !! k = None.
Proof.
  intros Hk. unfold indexed. apply not_elem_of_list_to_map_1.
  intros ((k' & v) & -> & Hin)%list_elem_of_fmap.
  apply elem_of_lookup_imap in Hin as (i & x & [= -> _] & _).
  apply Hk, pretty_nat_digit.
Qed.

Lemma named_property k c rest :
  k = String c rest ->
  (forall d : N, c <> pretty_N_char d) ->
  ~ starts_with_digit k.
Proof. intros -> Hc [d Hd]. exact (Hc d Hd). Qed.

Lemma minimize_link_named : ~ starts_with_digit "minimize_link".
Proof.
  eapply named_property; [reflexivity|].
  intros d. unfold pretty_N_char. repeat case_match; discriminate.
Qed.

(** The notification under a named property, for every value passed as
    options. *)
Lemma notification_lookup_named options k :
  ~ starts_with_digit k ->
  notification options !! k =
  match options with
  | VObj o =>
      match o !! k with
      | Some v => Some v
      | None => messageDefaults !! k
      end
  | _ => messageDefaults !! k
  end.
Proof.
  intros Hk. destruct options as [| |b|n|str|l|o|src|kind msg];
    try apply notification_lookup;
    unfold notification, extend; cbn [fold_left sourceProps];
    change (truthy (VObj messageDefaults)) with true; cbv iota;
    rewrite (right_id_L ∅ (∪));
    try match goal with
        | |- context [if truthy ?v then _ else _] => destruct (truthy v)
        end;
    rewrite ?lookup_union, ?lookup_empty, ?indexed_named by assumption;
    try reflexivity;
    destruct (messageDefaults !! k); reflexivity.
Qed.

(** C5, counterexample. An options object without any content resolves no
    string content, yet [sendMessage] sends the [createMessage] request and
    the call succeeds with the payload of the answer. *)
Lemma sendMessage_without_content_is_sent :
  let answer : gmap string value :=
    {[ "statusCode" := VNum 200;
       "body" := VObj {[ "status_code" := VNum 200;
                         "status_message" := VStr "OK";
                         "response" := VStr "payload" ]} ]} in
  run (sendMessage (fun _ => Resolved (VObj answer)) plain_client (VObj ∅)
         VUndefined)
  = ([Request (requestOptions plain_client (VStr "createMessage")
        (VObj {[ "request" := VObj (messageRequest plain_client (VObj ∅)) ]}))],
     Normal (Some (Resolved (VStr "payload"))))
  /\ notification (VObj ∅) !! "content" = None.
Proof. split; by_vm. Qed.

(** C5, as amended. On a client with the class's own methods and a string
    [host] and [version], [sendMessage] validates nothing: for every options
    value and callback it hands the transport exactly one request, a POST to
    the [createMessage] address; for an options object that request carries
    the one notification built from it, and the [content] of the object,
    whatever its type, is the [content] of that notification. *)
Theorem sendMessage_sends_whatever_the_content transport this options cb :
  ordinary this = true ->
  (exists body,
     requests (run (sendMessage transport this options cb)).1 =
       [requestOptions this (VStr "createMessage") body])
  /\ forall (o : gmap string value),
       requests (run (sendMessage transport this (VObj o) cb)).1 =
         [requestOptions this (VStr "createMessage")
            (VObj {[ "request" := VObj (messageRequest this (VObj o)) ]})]
       /\ messageRequest this (VObj o) !! "notifications"
          = Some (VArr [VObj (notification (VObj o))])
       /\ forall content,
            notification (VObj (<[ "content" := content ]> o)) !! "content"
            = Some content.
Proof.
  intros _. split.
  - eexists. apply sendMessage_requests.
  - intros o. split; [apply sendMessage_requests|].
    split; [apply messageRequest_notifications|].
    intros content. rewrite notification_lookup, lookup_insert_eq.
    reflexivity.
Qed.

Lemma sendMessage_sends_whatever_the_content_witness :
  (exists body,
     requests (run (sendMessage (fun _ => Resolved VNull) plain_client
                      (VNum 7) VUndefined)).1 =
       [requestOptions plain_client (VStr "createMessage") body])
  /\ forall (o : gmap string value),
       requests (run (sendMessage (fun _ => Resolved VNull) plain_client
                        (VObj o) VUndefined)).1 =
         [requestOptions plain_client (VStr "createMessage")
            (VObj {[ "request" :=
                       VObj (messageRequest plain_client (VObj o)) ]})]
       /\ messageRequest plain_client (VObj o) !! "notifications"
          = Some (VArr [VObj (notification (VObj o))])
       /\ forall content,
            notification (VObj (<[ "content" := content ]> o)) !! "content"
            = Some content.
Proof.
  exact (sendMessage_sends_whatever_the_content (fun _ => Resolved VNull)
           plain_client (VNum 7) VUndefined eq_refl).
Defined.

(** C7, counterexample. [sendMessage("hello")] sends a notification without
    any [content]: the characters of the string are copied under their
    indices instead. *)
Lemma sendMessage_bare_string_has_no_content :
  requests (run (sendMessage (fun _ => Resolved VNull) plain_client
                   (VStr "hello") VUndefined)).1
  = [requestOptions plain_client (VStr "createMessage")
       (VObj {[ "request" :=
                  VObj (messageRequest plain_client (VStr "hello")) ]})]
  /\ messageRequest plain_client (VStr "hello") !! "notifications"
     = Some (VArr [VObj (notification (VStr "hello"))])
  /\ notification (VStr "hello") !! "content" = None
  /\ notification (VStr "hello") !! "0" = Some (VStr "h").
Proof. repeat split; by_vm. Qed.

(** C7, as amended. [sendMessage({content: "hello"})] sends a single
    notification with [content] "hello", [send_date] "now" and
    [ignore_user_timezone] true; in general the notification is the caller's
    options object laid over the defaults [{send_date: "now",
    ignore_user_timezone: true, minimize_link: 0}], the content being the one
    the options hold. This is on a client with the class's own methods and
    a string [host] and [version]. *)
Theorem sendMessage_notification_overlays_options transport this cb :
  ordinary this = true ->
  (let hello := VObj {[ "content" := VStr "hello" ]} in
   requests (run (sendMessage transport this hello cb)).1 =
     [requestOptions this (VStr "createMessage")
        (VObj {[ "request" := VObj (messageRequest this hello) ]})]
   /\ messageRequest this hello !! "notifications"
      = Some (VArr [VObj (notification hello)])
   /\ notification hello !! "content" = Some (VStr "hello")
   /\ notification hello !! "send_date" = Some (VStr "now")
   /\ notification hello !! "ignore_user_timezone" = Some (VBool true))
  /\ forall (o : gmap string value),
       requests (run (sendMessage transport this (VObj o) cb)).1 =
         [requestOptions this (VStr "createMessage")
            (VObj {[ "request" := VObj (messageRequest this (VObj o)) ]})]
       /\ messageRequest this (VObj o) !! "notifications"
          = Some (VArr [VObj (notification (VObj o))])
       /\ forall k,
            notification (VObj o) !! k =
            match o !! k with
            | Some v => Some v
            | None =>
                ({[ "send_date" := VStr "now";
                    "ignore_user_timezone" := VBool true;
                    "minimize_link" := VNum 0 ]} : gmap string value) !! k
            end.
Proof.
  intros _. split.
  - cbv zeta. split; [apply sendMessage_requests|].
    split; [apply messageRequest_notifications|].
    repeat split; by_vm.
  - intros o. split; [apply sendMessage_requests|].
    split; [apply messageRequest_notifications|].
    intros k. apply notification_lookup.
Qed.

Lemma sendMessage_notification_overlays_options_witness :
  let hello := VObj {[ "content" := VStr "hello" ]} in
  requests (run (sendMessage (fun _ => Resolved VNull) plain_client hello
                   VUndefined)).1 =
    [requestOptions plain_client (VStr "createMessage")
       (VObj {[ "request" := VObj (messageRequest plain_client hello) ]})]
  /\ messageRequest plain_client hello !! "notifications"
     = Some (VArr [VObj (notification hello)])
  /\ notification hello !! "content" = Some (VStr "hello")
  /\ notification hello !! "send_date" = Some (VStr "now")
  /\ notification hello !! "ignore_user_timezone" = Some (VBool true).
Proof.
  exact (proj1 (sendMessage_notification_overlays_options
                  (fun _ => Resolved VNull) plain_client VUndefined eq_refl)).
Defined.

(** C10. On a client with the class's own methods and a string [host] and
    [version], whatever is passed as options, the request carries one
    notification; when the options are not an object holding a
    [minimize_link], that notification has [minimize_link: 0]; when they
    are, it has the caller's value. *)
Theorem sendMessage_minimize_link_default transport this options cb :
  ordinary this = true ->
  requests (run (sendMessage transport this options cb)).1 =
    [requestOptions this (VStr "createMessage")
       (VObj {[ "request" := VObj (messageRequest this options) ]})]
  /\ messageRequest this options !! "notifications"
     = Some (VArr [VObj (notification options)])
  /\ notification options !! "minimize_link"
     = Some (match options with
             | VObj o => default (VNum 0) (o !! "minimize_link")
             | _ => VNum 0
             end).
Proof.
  intros _.
  split; [apply sendMessage_requests|].
  split; [apply messageRequest_notifications|].
  rewrite (notification_lookup_named _ _ minimize_link_named).
  destruct options as [| |b|n|str|l|o|src|kind msg]; try reflexivity.
  destruct (o !! "minimize_link"); reflexivity.
Qed.

Lemma sendMessage_minimize_link_default_witness :
  let options := VObj {[ "content" := VStr "hello" ]} in
  requests (run (sendMessage (fun _ => Resolved VNull) plain_client options
                   VUndefined)).1 =
    [requestOptions plain_client (VStr "createMessage")
       (VObj {[ "request" := VObj (messageRequest plain_client options) ]})]
  /\ messageRequest plain_client options !! "notifications"
     = Some (VArr [VObj (notification options)])
  /\ notification options !! "minimize_link" = Some (VNum 0).
Proof.
  exact (sendMessage_minimize_link_default (fun _ => Resolved VNull)
           plain_client (VObj {[ "content" := VStr "hello" ]}) VUndefined
           eq_refl).
Defined.

(** C8. For a client built by the constructor, with the class's own
    methods and a string [host] and [version], the [request] of the one
    envelope [sendMessage] sends has [application_group] set to the
    application id and no [application] when [useAppGroup] is set, and
    [application] set to the application id and no [application_group]
    otherwise. *)
Theorem sendMessage_application_or_group
    transport app token config this options cb :
  constructor app token config = Normal this ->
  ordinary this = true ->
  exists request : gmap string value,
    requests (run (sendMessage transport this options cb)).1 =
      [requestOptions this (VStr "createMessage")
         (VObj {[ "request" := VObj request ]})]
    /\ if truthy (field this "useAppGroup") then
         request !! "application_group" = Some app
         /\ request !! "application" = None
       else
         request !! "application" = Some app
         /\ request !! "application_group" = None.
Proof.
  intros [Happ _]%constructor_credentials _.
  exists (messageRequest this options).
  split; [apply sendMessage_requests|].
  unfold messageRequest. rewrite Happ.
  destruct (truthy (field this "useAppGroup")); split; by simplify_map_eq.
Qed.

Lemma sendMessage_application_or_group_witness :
  exists request : gmap string value,
    requests (run (sendMessage (fun _ => Resolved VNull) group_client
                     (VObj {[ "content" := VStr "hello" ]}) VUndefined)).1 =
      [requestOptions group_client (VStr "createMessage")
         (VObj {[ "request" := VObj request ]})]
    /\ request !! "application_group" = Some (VStr "APP")
    /\ request !! "application" = None.
Proof.
  exact (sendMessage_application_or_group (fun _ => Resolved VNull)
           (VStr "APP") (VStr "TOK") (VObj {[ "useAppGroup" := VBool true ]})
           group_client (VObj {[ "content" := VStr "hello" ]}) VUndefined
           group_client_constructed eq_refl).
Defined.

(** ** registerDevice *)

(** The three tests of [registerDevice], in order, on an options object. *)
Lemma registerDevice_run transport this (o : gmap string value) cb :
  let rejected e :=
    (if isFunction cb then [Callback cb [e]] else [],
     Normal (Some (Rejected e))) in
  if negb (isString (field o "push_token")) then
    run (registerDevice transport this (VObj o) cb) = rejected push_token_error
  else if isString (field o "hwid") then
    run (registerDevice transport this (VObj o) cb) = rejected hwid_error
  else if isNumber (field o "device_type") then
    run (registerDevice transport this (VObj o) cb) = rejected device_type_error
  else
    requests (run (registerDevice transport this (VObj o) cb)).1 =
      [requestOptions this (VStr "registerDevice")
         (VObj {[ "request" :=
                    VObj (extend ∅ [VObj {[ "application" := field this "app" ]};
                                    VObj o]) ]})].
Proof.
  cbv zeta. exec_unfold.
  destruct (isString (field o "push_token")); cbn [negb];
    [|destruct (isFunction cb); reflexivity].
  destruct (isString (field o "hwid"));
    [destruct (isFunction cb); reflexivity|].
  destruct (isNumber (field o "device_type"));
    [destruct (isFunction cb); reflexivity|].
  exec_cases; reflexivity.
Qed.

(** C1, the code at the failing input. A registration with a string
    [push_token] and a string [hwid] is rejected, whatever its [device_type]
    and its other fields, with the error about the hwid, and no request is
    issued; the claim has the registration with a numeric [device_type]
    sent. *)
Theorem registerDevice_rejects_valid_registration
    transport this (o : gmap string value) cb push_token hwid :
  o !! "push_token" = Some (VStr push_token) ->
  o !! "hwid" = Some (VStr hwid) ->
  (run (registerDevice transport this (VObj o) cb)).2
    = Normal (Some (Rejected hwid_error))
  /\ requests (run (registerDevice transport this (VObj o) cb)).1 = [].
Proof.
  intros Htoken%field_lookup Hhwid%field_lookup.
  pose proof (registerDevice_run transport this o cb) as Hrun.
  cbv zeta in Hrun. rewrite Htoken, Hhwid in Hrun. cbn in Hrun.
  rewrite Hrun. destruct (isFunction cb); split; reflexivity.
Qed.

Lemma registerDevice_rejects_valid_registration_witness :
  let registration : gmap string value :=
    {[ "push_token" := VStr "token"; "hwid" := VStr "hw-1";
       "device_type" := VNum 3 ]} in
  (run (registerDevice (fun _ => Resolved VNull) plain_client
          (VObj registration) VUndefined)).2
    = Normal (Some (Rejected hwid_error))
  /\ requests (run (registerDevice (fun _ => Resolved VNull) plain_client
                      (VObj registration) VUndefined)).1 = [].
Proof.
  apply (registerDevice_rejects_valid_registration (fun _ => Resolved VNull)
           plain_client _ VUndefined "token" "hw-1");
    vm_compute; reflexivity.
Defined.

(** The inverted tests let through what the messages call mandatory: with a
    string [push_token] and neither [hwid] nor [device_type] the request is
    sent. *)
Lemma registerDevice_sends_without_hwid transport this :
  requests (run (registerDevice transport this
                   (VObj {[ "push_token" := VStr "token" ]}) VUndefined)).1
  = [requestOptions this (VStr "registerDevice")
       (VObj {[ "request" :=
                  VObj (extend ∅ [VObj {[ "application" := field this "app" ]};
                                  VObj {[ "push_token" := VStr "token" ]}]) ]})].
Proof.
  exact (registerDevice_run transport this {[ "push_token" := VStr "token" ]}
           VUndefined).
Qed.

(** A numeric [device_type] is what gets a registration without [hwid]
    rejected. *)
Lemma registerDevice_rejects_numeric_device_type transport this :
  run (registerDevice transport this
         (VObj {[ "push_token" := VStr "token"; "device_type" := VNum 3 ]})
         VUndefined)
  = ([], Normal (Some (Rejected device_type_error))).
Proof. reflexivity. Qed.

(** ** deleteMessage *)

(** C9. For a client built by the constructor, with the class's own methods
    and a string [host] and [version]: a message id that is not a
    string (the number 42, say) makes [deleteMessage] fail with the
    validation error without any request; a string message id makes it send
    exactly [{request: {auth: token, message: id}}] through the
    [deleteMessage] action. *)
Theorem deleteMessage_validates_message_id
    transport app token config this code cb :
  constructor app token config = Normal this ->
  ordinary this = true ->
  match code with
  | VStr id =>
      requests (run (deleteMessage transport this code cb)).1 =
        [requestOptions this (VStr "deleteMessage")
           (VObj {[ "request" :=
                      VObj {[ "auth" := token; "message" := VStr id ]} ]})]
  | _ =>
      (run (deleteMessage transport this code cb)).2
        = Normal (Some (Rejected message_id_error))
      /\ requests (run (deleteMessage transport this code cb)).1 = []
  end.
Proof.
  intros [_ Htoken]%constructor_credentials _.
  destruct code as [| |b|n|id|l|o|src|kind msg];
    try (split; exec_unfold; cbn [isString negb]; exec_cases; reflexivity).
  exec_unfold. cbn [isString negb]. rewrite Htoken.
  exec_cases; reflexivity.
Qed.

Lemma deleteMessage_validates_message_id_witness :
  (run (deleteMessage (fun _ => Resolved VNull) plain_client (VNum 42)
          VUndefined)).2
    = Normal (Some (Rejected message_id_error))
  /\ requests (run (deleteMessage (fun _ => Resolved VNull) plain_client
                      (VNum 42) VUndefined)).1 = [].
Proof.
  exact (deleteMessage_validates_message_id (fun _ => Resolved VNull)
           (VStr "APP") (VStr "TOK") VUndefined plain_client (VNum 42)
           VUndefined plain_client_constructed eq_refl).
Defined.

(** The same defect in [deleteMessage] and [registerDevice]: a successful
    transport with a callback ends in a rejection. *)
Lemma deleteMessage_success_with_callback this code src r :
  run (deleteMessage (fun _ => Resolved r) this (VStr code) (VFun src)) =
  ([Request (requestOptions this (VStr "deleteMessage")
      (VObj {[ "request" :=
          VObj {[ "auth" := field this "token"; "message" := VStr code ]} ]}));
    Callback (VFun src) [apply_type_error]],
   Normal (Some (Rejected apply_type_error))).
Proof. reflexivity. Qed.

(** * Further properties of the client *)

(** ** The constructor *)

Lemma constructor_object a t (o : gmap string value) :
  constructor (VStr a) (VStr t) (VObj o)
  = Normal ({[ "app" := VStr a; "token" := VStr t ]} ∪ (o ∪ defaults)).
Proof.
  unfold constructor, extend. cbn [fold_left truthy sourceProps isString negb orb].
  rewrite (right_id_L ∅ (∪)). reflexivity.
Qed.

(** X1. Whatever the options hold, also under [app] and [token], the client
    built from two strings has them as its [app] and [token]. *)
Theorem constructor_credentials_win a t options :
  exists this,
    constructor (VStr a) (VStr t) options = Normal this
    /\ this !! "app" = Some (VStr a)
    /\ this !! "token" = Some (VStr t).
Proof.
  eexists. split; [reflexivity|].
  unfold extend. cbn [fold_left truthy sourceProps].
  split; (erewrite lookup_union_Some_l; [reflexivity|]); reflexivity.
Qed.

(** X2. Every other property of the client is the one of the options object
    when it has it, and the default otherwise. *)
Theorem constructor_options_over_defaults a t (o : gmap string value) k :
  k <> "app" -> k <> "token" ->
  exists this,
    constructor (VStr a) (VStr t) (VObj o) = Normal this
    /\ this !! k = match o !! k with
                   | Some v => Some v
                   | None => defaults !! k
                   end.
Proof.
  intros Happ Htoken. eexists. split; [apply constructor_object|].
  rewrite lookup_union_r by by simplify_map_eq.
  rewrite lookup_union. destruct (o !! k), (defaults !! k); reflexivity.
Qed.

Lemma constructor_options_over_defaults_witness :
  exists this,
    constructor (VStr "APP") (VStr "TOK")
      (VObj {[ "host" := VStr "eu.example.org" ]}) = Normal this
    /\ this !! "version" = Some (VStr "1.3").
Proof.
  exact (constructor_options_over_defaults "APP" "TOK"
           {[ "host" := VStr "eu.example.org" ]} "version"
           ltac:(discriminate) ltac:(discriminate)).
Defined.

(** X3. Options that are missing or falsy count as [{}]: the client has the
    two credentials and the three defaults, nothing else. *)
Theorem constructor_without_options a t options :
  truthy options = false ->
  constructor (VStr a) (VStr t) options
  = Normal {[ "app" := VStr a; "token" := VStr t;
              "host" := VStr "cp.pushwoosh.com";
              "url" := VStr "https://cp.pushwoosh.com/json";
              "version" := VStr "1.3" ]}.
Proof.
  intros Hfalsy. unfold constructor. rewrite Hfalsy.
  cbn [isString negb orb]. reflexivity.
Qed.

Lemma constructor_without_options_witness :
  constructor (VStr "APP") (VStr "TOK") VNull
  = Normal {[ "app" := VStr "APP"; "token" := VStr "TOK";
              "host" := VStr "cp.pushwoosh.com";
              "url" := VStr "https://cp.pushwoosh.com/json";
              "version" := VStr "1.3" ]}.
Proof.
  exact (constructor_without_options "APP" "TOK" VNull eq_refl).
Defined.

(** ** sendRequest *)

(** X4. On a client with the class's own methods and a string [host] and
    [version], for a string action and without a callback function, the
    promise of [sendRequest] settles exactly as the transport did, after the
    one request, and nothing is called back. *)
Theorem sendRequest_settles_as_transport transport this action data cb :
  ordinary this = true ->
  isFunction cb = false ->
  run (sendRequest transport this (VStr action) data cb) =
  ([Request (requestOptions this (VStr action) data)],
   Normal (Some (transport (requestOptions this (VStr action) data)))).
Proof.
  intros _ Hcb. rewrite sendRequest_run. cbv zeta. rewrite Hcb.
  destruct (transport _); reflexivity.
Qed.

Lemma sendRequest_settles_as_transport_witness :
  run (sendRequest (fun _ => Rejected (VStr "ETIMEDOUT")) plain_client
         (VStr "createMessage") (VObj ∅) VNull)
  = ([Request (requestOptions plain_client (VStr "createMessage") (VObj ∅))],
     Normal (Some (Rejected (VStr "ETIMEDOUT")))).
Proof.
  exact (sendRequest_settles_as_transport (fun _ => Rejected (VStr "ETIMEDOUT"))
           plain_client "createMessage" (VObj ∅) VNull eq_refl eq_refl).
Defined.

(** X5. On such a client and for a string action, when the transport fails
    and a callback function was passed, the callback is invoked once, with
    the transport's error as its only argument, and the promise is rejected
    with the same error. *)
Theorem sendRequest_failure_calls_back_once transport this action data src e :
  ordinary this = true ->
  transport (requestOptions this (VStr action) data) = Rejected e ->
  run (sendRequest transport this (VStr action) data (VFun src)) =
  ([Request (requestOptions this (VStr action) data);
    Callback (VFun src) [e]],
   Normal (Some (Rejected e))).
Proof.
  intros _ He. rewrite sendRequest_run. cbv zeta. rewrite He. reflexivity.
Qed.

Lemma sendRequest_failure_calls_back_once_witness :
  run (sendRequest (fun _ => Rejected (VStr "ECONNREFUSED")) plain_client
         (VStr "deleteMessage") (VObj ∅) (VFun "done"))
  = ([Request (requestOptions plain_client (VStr "deleteMessage") (VObj ∅));
      Callback (VFun "done") [VStr "ECONNREFUSED"]],
     Normal (Some (Rejected (VStr "ECONNREFUSED")))).
Proof.
  exact (sendRequest_failure_calls_back_once
           (fun _ => Rejected (VStr "ECONNREFUSED")) plain_client
           "deleteMessage" (VObj ∅) "done" (VStr "ECONNREFUSED")
           eq_refl eq_refl).
Defined.

(** ** parseResponse *)

(** X6. A response that is [undefined] or [null] makes [parseResponse]
    reject with the [TypeError] of the property read; a callback, if any, is
    not invoked. *)
Theorem parseResponse_nullish_response this cb :
  (exists msg,
     run (parseResponse this VUndefined cb)
     = ([], Normal (Some (Rejected (VErr KTypeError msg)))))
  /\ (exists msg,
        run (parseResponse this VNull cb)
        = ([], Normal (Some (Rejected (VErr KTypeError msg))))).
Proof. split; eexists; reflexivity. Qed.

(** X7. A response object without a [body] makes [parseResponse] reject
    with a [TypeError], whatever its status code: both branches read a
    property of the body. A callback, if any, is not invoked. *)
Theorem parseResponse_missing_body this (resp : gmap string value) cb :
  resp !! "body" = None ->
  exists msg,
    run (parseResponse this (VObj resp) cb)
    = ([], Normal (Some (Rejected (VErr KTypeError msg)))).
Proof.
  intros Hbody.
  assert (field resp "body" = VUndefined) as Hfield
    by (unfold field; rewrite Hbody; reflexivity).
  exec_unfold. rewrite !Hfield.
  destruct (strictEqNum (field resp "statusCode") 200);
    eexists; reflexivity.
Qed.

Lemma parseResponse_missing_body_witness :
  exists msg,
    run (parseResponse plain_client (VObj {[ "statusCode" := VNum 502 ]})
           (VFun "done"))
    = ([], Normal (Some (Rejected (VErr KTypeError msg)))).
Proof.
  exact (parseResponse_missing_body plain_client {[ "statusCode" := VNum 502 ]}
           (VFun "done") eq_refl).
Defined.

(** X8. [parseResponse] never touches the network, and it invokes the
    callback at most once. *)
Theorem parseResponse_is_local this response cb :
  requests (run (parseResponse this response cb)).1 = []
  /\ (length (callbacks (run (parseResponse this response cb)).1) <= 1)%nat.
Proof. exec_unfold. exec_cases; split; cbn; solve [reflexivity | lia]. Qed.

(** ** sendMessage *)

(** X9. On a client with the class's own methods and a string [host] and
    [version], without a callback function, [sendMessage] is the transport followed
    by [parseResponse]: a transport failure rejects the promise with the
    transport's error, and a transport success settles it the way
    [parseResponse] settles on the response. One request is issued and
    nothing is called back. *)
Theorem sendMessage_is_transport_then_parseResponse
    transport this options cb :
  ordinary this = true ->
  isFunction cb = false ->
  let opts :=
    requestOptions this (VStr "createMessage")
      (VObj {[ "request" := VObj (messageRequest this options) ]}) in
  run (sendMessage transport this options cb) =
  ([Request opts],
   match transport opts with
   | Resolved response => (run (parseResponse this response cb)).2
   | Rejected e => Normal (Some (Rejected e))
   end).
Proof.
  intros _ Hcb. cbv zeta. exec_unfold. rewrite ?Hcb.
  exec_cases; rewrite ?Hcb; reflexivity.
Qed.

Lemma sendMessage_is_transport_then_parseResponse_witness :
  let opts :=
    requestOptions plain_client (VStr "createMessage")
      (VObj {[ "request" := VObj (messageRequest plain_client (VObj ∅)) ]}) in
  run (sendMessage (fun _ => Rejected (VStr "ETIMEDOUT")) plain_client
         (VObj ∅) VUndefined)
  = ([Request opts], Normal (Some (Rejected (VStr "ETIMEDOUT")))).
Proof.
  exact (sendMessage_is_transport_then_parseResponse
           (fun _ => Rejected (VStr "ETIMEDOUT")) plain_client (VObj ∅)
           VUndefined eq_refl eq_refl).
Defined.

(** X10. On a client with the class's own methods and a string [host] and
    [version], when the transport fails, [sendMessage] with a callback function
    invokes it once with the transport's error and rejects the promise with
    that error. *)
Theorem sendMessage_transport_failure_calls_back_once
    transport this options src e :
  ordinary this = true ->
  let opts :=
    requestOptions this (VStr "createMessage")
      (VObj {[ "request" := VObj (messageRequest this options) ]}) in
  transport opts = Rejected e ->
  run (sendMessage transport this options (VFun src)) =
  ([Request opts; Callback (VFun src) [e]], Normal (Some (Rejected e))).
Proof.
  cbv zeta. intros _ He. exec_unfold. rewrite He. reflexivity.
Qed.

Lemma sendMessage_transport_failure_calls_back_once_witness :
  run (sendMessage (fun _ => Rejected (VStr "ENOTFOUND")) plain_client
         (VObj {[ "content" := VStr "hello" ]}) (VFun "done"))
  = ([Request
        (requestOptions plain_client (VStr "createMessage")
           (VObj {[ "request" :=
                      VObj (messageRequest plain_client
                              (VObj {[ "content" := VStr "hello" ]})) ]}));
      Callback (VFun "done") [VStr "ENOTFOUND"]],
     Normal (Some (Rejected (VStr "ENOTFOUND")))).
Proof.
  exact (sendMessage_transport_failure_calls_back_once
           (fun _ => Rejected (VStr "ENOTFOUND")) plain_client
           (VObj {[ "content" := VStr "hello" ]}) "done" (VStr "ENOTFOUND")
           eq_refl eq_refl).
Defined.

(** X11. On a client with the class's own methods and a string [host] and
    [version], when the API answers with an error status and a string
    [status_message], [sendMessage] with a callback function invokes it
    twice with the same API error, once from [parseResponse] and once from
    its own rejection handler, and rejects the promise with that error. *)
Theorem sendMessage_error_status_calls_back_twice
    transport this options src (resp body : gmap string value) message :
  ordinary this = true ->
  let opts :=
    requestOptions this (VStr "createMessage")
      (VObj {[ "request" := VObj (messageRequest this options) ]}) in
  transport opts = Resolved (VObj resp) ->
  resp !! "body" = Some (VObj body) ->
  body !! "status_message" = Some (VStr message) ->
  strictEqNum (field resp "statusCode") 200
    && strictEqNum (field body "status_code") 200 = false ->
  let e :=
    VErr KError
      ("Pushwoosh API responded with argument error: " +:+ message) in
  run (sendMessage transport this options (VFun src)) =
  ([Request opts; Callback (VFun src) [e]; Callback (VFun src) [e]],
   Normal (Some (Rejected e))).
Proof.
  cbv zeta. intros _ Hresp Hbody Hmessage%field_lookup Hcodes.
  exec_unfold_outer. rewrite Hresp. cbv beta iota.
  rewrite (parseResponse_object _ _ _ _ _ Hbody), Hcodes, Hmessage.
  reflexivity.
Qed.

Lemma sendMessage_error_status_calls_back_twice_witness :
  let e :=
    VErr KError
      "Pushwoosh API responded with argument error: Application not found" in
  run (sendMessage (fun _ => Resolved (VObj error_answer)) plain_client
         (VObj ∅) (VFun "done"))
  = ([Request
        (requestOptions plain_client (VStr "createMessage")
           (VObj {[ "request" := VObj (messageRequest plain_client (VObj ∅)) ]}));
      Callback (VFun "done") [e]; Callback (VFun "done") [e]],
     Normal (Some (Rejected e))).
Proof.
  exact (sendMessage_error_status_calls_back_twice
           (fun _ => Resolved (VObj error_answer)) plain_client (VObj ∅)
           "done" error_answer error_body "Application not found"
           eq_refl eq_refl
           ltac:(vm_compute; reflexivity) ltac:(vm_compute; reflexivity)
           ltac:(vm_compute; reflexivity)).
Defined.

(** X12. For a client built by the constructor, the [request] of a message
    carries the token under [auth], and it has three properties: [auth],
    [notifications] and the application field. *)
Theorem sendMessage_request_fields app token config this options :
  constructor app token config = Normal this ->
  messageRequest this options !! "auth" = Some token
  /\ dom (messageRequest this options)
     = if truthy (field this "useAppGroup")
       then {[ "auth"; "notifications"; "application_group" ]}
       else {[ "auth"; "notifications"; "application" ]}.
Proof.
  intros [_ Htoken]%constructor_credentials.
  unfold messageRequest. rewrite Htoken.
  destruct (truthy (field this "useAppGroup")).
  - split; [by simplify_map_eq|].
    rewrite dom_insert_L, dom_insert_L, dom_singleton_L. set_solver.
  - split; [by simplify_map_eq|].
    rewrite dom_insert_L, dom_insert_L, dom_singleton_L. set_solver.
Qed.

Lemma sendMessage_request_fields_witness :
  messageRequest plain_client (VObj ∅) !! "auth" = Some (VStr "TOK")
  /\ dom (messageRequest plain_client (VObj ∅))
     = {[ "auth"; "notifications"; "application" ]}.
Proof.
  exact (sendMessage_request_fields (VStr "APP") (VStr "TOK") VUndefined
           plain_client (VObj ∅) plain_client_constructed).
Defined.

(** ** registerDevice *)

(** X13. On a client with the class's own methods, an options object whose
    [push_token] is missing or is not a string is rejected with the push token error before any request; a callback
    function is invoked once with that error. *)
Theorem registerDevice_requires_push_token
    transport this (o : gmap string value) cb :
  own_methods this = true ->
  isString (field o "push_token") = false ->
  run (registerDevice transport this (VObj o) cb) =
  (if isFunction cb then [Callback cb [push_token_error]] else [],
   Normal (Some (Rejected push_token_error))).
Proof.
  intros _ Htoken.
  pose proof (registerDevice_run transport this o cb) as Hrun.
  cbv zeta in Hrun. rewrite Htoken in Hrun. exact Hrun.
Qed.

Lemma registerDevice_requires_push_token_witness :
  run (registerDevice (fun _ => Resolved VNull) plain_client
         (VObj {[ "hwid" := VStr "hw-1" ]}) (VFun "done"))
  = ([Callback (VFun "done") [push_token_error]],
     Normal (Some (Rejected push_token_error))).
Proof.
  refine (registerDevice_requires_push_token (fun _ => Resolved VNull)
           plain_client ({[ "hwid" := VStr "hw-1" ]} : gmap string value)
           (VFun "done")
           _ _);
    vm_compute; reflexivity.
Defined.

(** X14. Called without options, or with [null], [registerDevice] rejects
    with the [TypeError] of reading [push_token]; no request is issued and a
    callback, if any, is not invoked. *)
Theorem registerDevice_nullish_options transport this cb :
  (exists msg,
     run (registerDevice transport this VUndefined cb)
     = ([], Normal (Some (Rejected (VErr KTypeError msg)))))
  /\ (exists msg,
        run (registerDevice transport this VNull cb)
        = ([], Normal (Some (Rejected (VErr KTypeError msg))))).
Proof. split; eexists; reflexivity. Qed.

(** X15. On a client with the class's own methods and a string [host] and
    [version], when the three tests let a registration through, the request sent
    through the [registerDevice] action is the registration itself laid over
    [{application: app}]: every field of the caller is passed on, an
    [application] of the caller replaces the client's, and no token is
    added. *)
Theorem registerDevice_request_body
    transport this (o : gmap string value) cb push_token :
  ordinary this = true ->
  o !! "push_token" = Some (VStr push_token) ->
  isString (field o "hwid") = false ->
  isNumber (field o "device_type") = false ->
  requests (run (registerDevice transport this (VObj o) cb)).1 =
    [requestOptions this (VStr "registerDevice")
       (VObj {[ "request" :=
                  VObj (o ∪ {[ "application" := field this "app" ]}) ]})].
Proof.
  intros _ Htoken%field_lookup Hhwid Htype.
  pose proof (registerDevice_run transport this o cb) as Hrun.
  cbv zeta in Hrun. rewrite Htoken, Hhwid, Htype in Hrun. cbn in Hrun.
  rewrite Hrun. unfold extend. cbn [fold_left truthy sourceProps].
  rewrite (right_id_L ∅ (∪)). reflexivity.
Qed.

Lemma registerDevice_request_body_witness :
  requests (run (registerDevice (fun _ => Resolved VNull) plain_client
                   (VObj {[ "push_token" := VStr "token" ]}) VUndefined)).1 =
    [requestOptions plain_client (VStr "registerDevice")
       (VObj {[ "request" :=
                  VObj ({[ "push_token" := VStr "token" ]}
                        ∪ {[ "application" := field plain_client "app" ]}) ]})].
Proof.
  refine (registerDevice_request_body (fun _ => Resolved VNull) plain_client
           ({[ "push_token" := VStr "token" ]} : gmap string value)
           VUndefined "token"
           _ _ _
           _);
    vm_compute; reflexivity.
Defined.

(** X16. [registerDevice] does not interpret the answer: on a client with
    the class's own methods and a string [host] and [version], without a
    callback function, a registration that passes the tests settles exactly as the
    transport did, also when the body of the answer carries an error
    status. *)
Theorem registerDevice_settles_as_transport
    transport this (o : gmap string value) cb push_token :
  ordinary this = true ->
  o !! "push_token" = Some (VStr push_token) ->
  isString (field o "hwid") = false ->
  isNumber (field o "device_type") = false ->
  isFunction cb = false ->
  (run (registerDevice transport this (VObj o) cb)).2 =
  Normal (Some (transport
    (requestOptions this (VStr "registerDevice")
       (VObj {[ "request" :=
                  VObj (extend ∅ [VObj {[ "application" := field this "app" ]};
                                  VObj o]) ]})))).
Proof.
  intros _ Htoken%field_lookup Hhwid Htype Hcb.
  exec_unfold. rewrite Htoken. cbn [isString negb]. rewrite Hhwid, Htype, Hcb.
  destruct (transport _); reflexivity.
Qed.

Lemma registerDevice_settles_as_transport_witness :
  (run (registerDevice (fun _ => Resolved (VObj error_answer)) plain_client
          (VObj {[ "push_token" := VStr "token" ]}) VUndefined)).2
  = Normal (Some (Resolved (VObj error_answer))).
Proof.
  refine (registerDevice_settles_as_transport
           (fun _ => Resolved (VObj error_answer)) plain_client
           ({[ "push_token" := VStr "token" ]} : gmap string value)
           VUndefined "token"
           _ _ _
           _ eq_refl);
    vm_compute; reflexivity.
Defined.

(** ** deleteMessage *)

(** X17. [deleteMessage] does not interpret the answer either: on a client
    with the class's own methods and a string [host] and [version], for a
    string id and without a callback function it issues its request and settles
    exactly as the transport did. *)
Theorem deleteMessage_settles_as_transport transport this id cb :
  ordinary this = true ->
  isFunction cb = false ->
  let opts :=
    requestOptions this (VStr "deleteMessage")
      (VObj {[ "request" :=
                 VObj {[ "auth" := field this "token";
                         "message" := VStr id ]} ]}) in
  run (deleteMessage transport this (VStr id) cb) =
  ([Request opts], Normal (Some (transport opts))).
Proof.
  intros _ Hcb. cbv zeta. exec_unfold. cbn [isString negb]. rewrite Hcb.
  destruct (transport _); reflexivity.
Qed.

Lemma deleteMessage_settles_as_transport_witness :
  run (deleteMessage (fun _ => Resolved (VObj error_answer)) plain_client
         (VStr "m-1") VUndefined)
  = ([Request
        (requestOptions plain_client (VStr "deleteMessage")
           (VObj {[ "request" :=
                      VObj {[ "auth" := field plain_client "token";
                              "message" := VStr "m-1" ]} ]}))],
     Normal (Some (Resolved (VObj error_answer)))).
Proof.
  exact (deleteMessage_settles_as_transport
           (fun _ => Resolved (VObj error_answer)) plain_client "m-1"
           VUndefined eq_refl eq_refl).
Defined.

(** X18. On a client with the class's own methods, a message id that is not
    a string reaches a callback function once,
    as the validation error, before the promise is rejected with it. *)
Theorem deleteMessage_invalid_id_calls_back_once transport this code src :
  own_methods this = true ->
  isString code = false ->
  run (deleteMessage transport this code (VFun src)) =
  ([Callback (VFun src) [message_id_error]],
   Normal (Some (Rejected message_id_error))).
Proof. intros _ Hcode. exec_unfold. rewrite Hcode. reflexivity. Qed.

Lemma deleteMessage_invalid_id_calls_back_once_witness :
  run (deleteMessage (fun _ => Resolved VNull) plain_client (VNum 42)
         (VFun "done"))
  = ([Callback (VFun "done") [message_id_error]],
     Normal (Some (Rejected message_id_error))).
Proof.
  exact (deleteMessage_invalid_id_calls_back_once (fun _ => Resolved VNull)
           plain_client (VNum 42) "done" eq_refl eq_refl).
Defined.

(** ** All the methods *)

(** X19. No call issues more than one request: there is no retry and no
    second attempt, however the transport and the API answer. *)
Theorem at_most_one_request transport this x y cb :
  (length (requests (run (sendRequest transport this x y cb)).1) <= 1)%nat
  /\ (length (requests (run (sendMessage transport this x cb)).1) <= 1)%nat
  /\ (length (requests (run (registerDevice transport this x cb)).1) <= 1)%nat
  /\ (length (requests (run (deleteMessage transport this x cb)).1) <= 1)%nat.
Proof.
  repeat split.
  - rewrite sendRequest_run. cbv zeta. exec_split; cbn; lia.
  - rewrite sendMessage_requests. cbn. lia.
  - exec_unfold. exec_split; cbn; lia.
  - exec_unfold. exec_split; cbn; lia.
Qed.

(** X20. On a client with the class's own methods every call returns a
    promise that settles: no method throws at the call, and none leaves its
    promise pending once the transport has settled. *)
Theorem every_promise_settles transport this x y cb :
  own_methods this = true ->
  (exists r, (run (sendRequest transport this x y cb)).2 = Normal (Some r))
  /\ (exists r, (run (parseResponse this x cb)).2 = Normal (Some r))
  /\ (exists r, (run (sendMessage transport this x cb)).2 = Normal (Some r))
  /\ (exists r, (run (registerDevice transport this x cb)).2 = Normal (Some r))
  /\ (exists r, (run (deleteMessage transport this x cb)).2 = Normal (Some r)).
Proof.
  intros _.
  repeat split; exec_unfold; exec_split; eexists; reflexivity.
Qed.

Lemma every_promise_settles_witness :
  (exists r,
     (run (sendRequest (fun _ => Rejected VNull) plain_client
             (VStr "createMessage") (VObj ∅) (VFun "done"))).2
     = Normal (Some r))
  /\ (exists r,
        (run (parseResponse plain_client (VStr "createMessage")
                (VFun "done"))).2 = Normal (Some r))
  /\ (exists r,
        (run (sendMessage (fun _ => Rejected VNull) plain_client
                (VStr "createMessage") (VFun "done"))).2 = Normal (Some r))
  /\ (exists r,
        (run (registerDevice (fun _ => Rejected VNull) plain_client
                (VStr "createMessage") (VFun "done"))).2 = Normal (Some r))
  /\ (exists r,
        (run (deleteMessage (fun _ => Rejected VNull) plain_client
                (VStr "createMessage") (VFun "done"))).2 = Normal (Some r)).
Proof.
  exact (every_promise_settles (fun _ => Rejected VNull) plain_client
           (VStr "createMessage") (VObj ∅) (VFun "done") eq_refl).
Defined.

(** X21. Where no callback function is passed nothing is ever invoked: the
    promise is the only way out of the call. *)
Theorem no_callback_nothing_invoked transport this x y cb :
  isFunction cb = false ->
  callbacks (run (sendRequest transport this x y cb)).1 = []
  /\ callbacks (run (parseResponse this x cb)).1 = []
  /\ callbacks (run (sendMessage transport this x cb)).1 = []
  /\ callbacks (run (registerDevice transport this x cb)).1 = []
  /\ callbacks (run (deleteMessage transport this x cb)).1 = [].
Proof.
  intros Hcb.
  repeat split; exec_unfold; rewrite ?Hcb; exec_split; rewrite ?Hcb;
    exec_split; reflexivity.
Qed.

Lemma no_callback_nothing_invoked_witness :
  callbacks (run (sendRequest (fun _ => Resolved VNull) plain_client
                    (VStr "createMessage") (VObj ∅) VUndefined)).1 = []
  /\ callbacks (run (parseResponse plain_client (VStr "createMessage")
                       VUndefined)).1 = []
  /\ callbacks (run (sendMessage (fun _ => Resolved VNull) plain_client
                       (VStr "createMessage") VUndefined)).1 = []
  /\ callbacks (run (registerDevice (fun _ => Resolved VNull) plain_client
                       (VStr "createMessage") VUndefined)).1 = []
  /\ callbacks (run (deleteMessage (fun _ => Resolved VNull) plain_client
                       (VStr "createMessage") VUndefined)).1 = [].
Proof.
  exact (no_callback_nothing_invoked (fun _ => Resolved VNull) plain_client
           (VStr "createMessage") (VObj ∅) VUndefined eq_refl).
Defined.

(** X22. Whenever a callback is invoked, it is the caller's and it receives
    exactly one argument: no method ever calls back in the [(null, result)]
    form. *)
Theorem callback_gets_one_argument transport this x y cb :
  let one_argument (call : value * list value) :=
    call.1 = cb /\ length call.2 = 1%nat in
  Forall one_argument (callbacks (run (sendRequest transport this x y cb)).1)
  /\ Forall one_argument (callbacks (run (parseResponse this x cb)).1)
  /\ Forall one_argument (callbacks (run (sendMessage transport this x cb)).1)
  /\ Forall one_argument
       (callbacks (run (registerDevice transport this x cb)).1)
  /\ Forall one_argument
       (callbacks (run (deleteMessage transport this x cb)).1).
Proof.
  cbv zeta.
  repeat split; exec_unfold; exec_split;
    cbn; repeat constructor.
Qed.

(** X23. A client built without [host] and [version] among its options
    posts to [https://cp.pushwoosh.com/json/1.3/{action}]. *)
Theorem sendRequest_default_endpoint
    transport a t (o : gmap string value) this action data cb :
  o !! "host" = None ->
  o !! "version" = None ->
  constructor (VStr a) (VStr t) (VObj o) = Normal this ->
  exists opts,
    requests (run (sendRequest transport this (VStr action) data cb)).1 = [opts]
    /\ opts !! "url"
       = Some (VStr ("https://cp.pushwoosh.com/json/1.3/" +:+ action)).
Proof.
  intros Hhost Hversion Hthis.
  rewrite constructor_object in Hthis. injection Hthis as <-.
  exists (requestOptions
            ({[ "app" := VStr a; "token" := VStr t ]} ∪ (o ∪ defaults))
            (VStr action) data).
  split.
  - rewrite sendRequest_run. cbv zeta.
    destruct (transport _); destruct (isFunction cb); reflexivity.
  - unfold requestOptions, field.
    rewrite !(lookup_union_r {[ "app" := VStr a; "token" := VStr t ]})
      by by simplify_map_eq.
    rewrite !lookup_union_r by assumption. reflexivity.
Qed.

Lemma sendRequest_default_endpoint_witness :
  exists opts,
    requests (run (sendRequest (fun _ => Resolved VNull) group_client
                     (VStr "deleteMessage") (VObj ∅) VUndefined)).1 = [opts]
    /\ opts !! "url"
       = Some (VStr "https://cp.pushwoosh.com/json/1.3/deleteMessage").
Proof.
  refine (sendRequest_default_endpoint (fun _ => Resolved VNull) "APP" "TOK"
            ({[ "useAppGroup" := VBool true ]} : gmap string value)
            group_client "deleteMessage" (VObj ∅) VUndefined _ _
            group_client_constructed);
    vm_compute; reflexivity.
Defined.

(** * The earlier revision *)

(** X24. The earlier constructor keeps six properties and no other, whatever
    the options object holds; a [timeout] that is missing or falsy becomes
    31000, a [host] or [version] that is missing or falsy becomes the
    default one. *)
Theorem legacy_constructor_fields a t (o : gmap string value) :
  exists this,
    Legacy.constructor (VStr a) (VStr t) (VObj o) = Normal this
    /\ dom this
       = {[ "app"; "token"; "host"; "version"; "useAppGroup"; "timeout" ]}
    /\ this !! "app" = Some (VStr a)
    /\ this !! "token" = Some (VStr t)
    /\ this !! "timeout"
       = Some (if truthy (field o "timeout") then field o "timeout"
               else VNum 31000)
    /\ this !! "host"
       = Some (if truthy (field o "host") then field o "host"
               else VStr "cp.pushwoosh.com")
    /\ this !! "version"
       = Some (if truthy (field o "version") then field o "version"
               else VStr "1.3").
Proof.
  eexists. split; [reflexivity|].
  split; [rewrite !dom_insert_L, dom_singleton_L; set_solver|].
  repeat split; by simplify_map_eq.
Qed.

(** X25. The earlier completion helpers settle the promise with the second
    of their arguments, the callback, in place of the result: on a client
    whose [host] and [version] are strings, [sendRequest] called with a
    string action and without a callback issues its request, resolves with
    [undefined] when the transport succeeds and rejects with [undefined]
    when it fails. *)
Theorem legacy_sendRequest_loses_result transport this action data :
  isString (field this "host") = true ->
  isString (field this "version") = true ->
  run (Legacy.sendRequest transport this (VStr action) data VUndefined) =
  ([Request (Legacy.requestOptions this (VStr action) data)],
   Normal (Some (match transport
                         (Legacy.requestOptions this (VStr action) data) with
                 | Resolved _ => Resolved VUndefined
                 | Rejected _ => Rejected VUndefined
                 end))).
Proof. intros _ _. legacy_unfold. destruct (transport _); reflexivity. Qed.

Lemma legacy_sendRequest_loses_result_witness :
  run (Legacy.sendRequest (fun _ => Resolved (VStr "answer")) plain_client
         (VStr "createMessage") (VObj ∅) VUndefined) =
  ([Request (Legacy.requestOptions plain_client (VStr "createMessage")
               (VObj ∅))],
   Normal (Some (Resolved VUndefined))).
Proof.
  exact (legacy_sendRequest_loses_result (fun _ => Resolved (VStr "answer"))
           plain_client "createMessage" (VObj ∅) eq_refl eq_refl).
Defined.

(** X26. In the earlier revision a message that is neither a string nor an
    object holding a [content] is refused before any request: the promise
    is rejected, with the value passed as callback, and a callback function
    is invoked once with itself and the validation error. *)
Theorem legacy_sendMessage_refuses_non_string
    transport this message options cb :
  isString message = false ->
  Legacy.isObject message && Legacy.has message "content" = false ->
  run (Legacy.sendMessage transport this message options cb) =
  (if isFunction cb then [Callback cb [cb; Legacy.message_error]] else [],
   Normal (Some (Rejected cb))).
Proof.
  intros Hstring Hobject.
  unfold Legacy.sendMessage, Legacy.messageArguments. rewrite Hobject.
  legacy_unfold. rewrite Hstring. cbn [negb].
  destruct (isFunction cb); reflexivity.
Qed.

Lemma legacy_sendMessage_refuses_non_string_witness :
  run (Legacy.sendMessage (fun _ => Resolved VNull) plain_client (VNum 42)
         VUndefined (VFun "done"))
  = ([Callback (VFun "done") [VFun "done"; Legacy.message_error]],
     Normal (Some (Rejected (VFun "done")))).
Proof.
  exact (legacy_sendMessage_refuses_non_string (fun _ => Resolved VNull)
           plain_client (VNum 42) VUndefined (VFun "done") eq_refl eq_refl).
Defined.

Lemma legacy_notification_content message options :
  Legacy.notification message options !! "content" = Some message.
Proof.
  unfold Legacy.notification, extend. cbn [fold_left truthy].
  erewrite lookup_union_Some_l; [reflexivity|]. apply lookup_singleton_eq.
Qed.

Lemma legacy_sendMessage_requests transport this m options cb :
  requests (run (Legacy.sendMessage transport this (VStr m) options cb)).1 =
  [Legacy.requestOptions this (VStr "createMessage")
     (VObj {[ "request" :=
                VObj (Legacy.messageRequest this (VStr m) options) ]})].
Proof.
  unfold Legacy.sendMessage, Legacy.messageArguments.
  cbn [Legacy.isObject andb]. legacy_unfold. cbn [isString negb].
  exec_split; reflexivity.
Qed.

(** X27. In the earlier revision, on a client whose [host] and [version]
    are strings, [sendMessage] with a string sends one request whose single notification has that string as its [content],
    whatever [content] the options hold, and otherwise the options object
    laid over [send_date: "now"] and [ignore_user_timezone: true]. *)
Theorem legacy_sendMessage_forces_content
    transport this m (o : gmap string value) cb :
  isString (field this "host") = true ->
  isString (field this "version") = true ->
  requests (run (Legacy.sendMessage transport this (VStr m) (VObj o) cb)).1 =
    [Legacy.requestOptions this (VStr "createMessage")
       (VObj {[ "request" :=
                  VObj (Legacy.messageRequest this (VStr m) (VObj o)) ]})]
  /\ Legacy.messageRequest this (VStr m) (VObj o) !! "notifications"
     = Some (VArr [VObj (Legacy.notification (VStr m) (VObj o))])
  /\ Legacy.notification (VStr m) (VObj o) !! "content" = Some (VStr m)
  /\ forall k, k <> "content" ->
       Legacy.notification (VStr m) (VObj o) !! k =
       match o !! k with
       | Some v => Some v
       | None =>
           ({[ "send_date" := VStr "now";
               "ignore_user_timezone" := VBool true ]} : gmap string value)
             !! k
       end.
Proof.
  intros _ _.
  split; [apply legacy_sendMessage_requests|].
  split.
  { unfold Legacy.messageRequest.
    destruct (truthy (field this "useAppGroup")); by simplify_map_eq. }
  split; [apply legacy_notification_content|].
  intros k Hk. unfold Legacy.notification, extend.
  cbn [fold_left truthy sourceProps]. rewrite (right_id_L ∅ (∪)).
  rewrite lookup_union_r by (apply lookup_singleton_ne; congruence).
  rewrite lookup_union. destruct (o !! k) as [v|].
  - destruct (_ !! k); reflexivity.
  - rewrite (left_id None _).
    destruct (decide (k = "send_date")) as [->|]; [reflexivity|].
    destruct (decide (k = "ignore_user_timezone")) as [->|]; [reflexivity|].
    rewrite !lookup_insert_ne, !lookup_singleton_ne by congruence.
    reflexivity.
Qed.

(** X28. In the earlier revision, on a client whose [host] and [version]
    are strings, a message object holding a string [content] is sent as that string with the object as options: the fields
    beside the content, [devices] say, are kept in the notification. *)
Theorem legacy_sendMessage_message_object
    transport this (o : gmap string value) m options cb :
  isString (field this "host") = true ->
  isString (field this "version") = true ->
  o !! "content" = Some (VStr m) ->
  requests (run (Legacy.sendMessage transport this (VObj o) options cb)).1 =
    [Legacy.requestOptions this (VStr "createMessage")
       (VObj {[ "request" :=
                  VObj (Legacy.messageRequest this (VStr m) (VObj o)) ]})]
  /\ forall k v, o !! k = Some v ->
       Legacy.notification (VStr m) (VObj o) !! k = Some v.
Proof.
  intros _ _ Hcontent. split.
  - rewrite <- (legacy_sendMessage_requests transport this m (VObj o)
                  (if isFunction options then options else cb)).
    unfold Legacy.sendMessage at 1, Legacy.messageArguments at 1.
    unfold Legacy.isObject, Legacy.has, Legacy.prop, field.
    rewrite Hcontent. rewrite bool_decide_true by eauto.
    cbn [andb default]. reflexivity.
  - intros k v Hk. destruct (decide (k = "content")) as [->|Hne].
    + rewrite legacy_notification_content. congruence.
    + unfold Legacy.notification, extend.
      cbn [fold_left truthy sourceProps]. rewrite (right_id_L ∅ (∪)).
      rewrite lookup_union_r by (apply lookup_singleton_ne; congruence).
      erewrite lookup_union_Some_l; [reflexivity|exact Hk].
Qed.

Lemma legacy_sendMessage_message_object_witness :
  let o : gmap string value :=
    {[ "content" := VStr "x"; "devices" := VArr [VStr "d1"] ]} in
  requests (run (Legacy.sendMessage (fun _ => Resolved VNull) plain_client
                   (VObj o) VUndefined VUndefined)).1 =
    [Legacy.requestOptions plain_client (VStr "createMessage")
       (VObj {[ "request" :=
                  VObj (Legacy.messageRequest plain_client (VStr "x")
                          (VObj o)) ]})]
  /\ forall k v, o !! k = Some v ->
       Legacy.notification (VStr "x") (VObj o) !! k = Some v.
Proof.
  refine (legacy_sendMessage_message_object (fun _ => Resolved VNull)
            plain_client
            ({[ "content" := VStr "x"; "devices" := VArr [VStr "d1"] ]}
               : gmap string value)
            "x" VUndefined VUndefined _ _ _);
    vm_compute; reflexivity.
Defined.

Lemma legacy_sendMessage_forces_content_witness :
  let o : gmap string value := {[ "content" := VStr "other" ]} in
  requests (run (Legacy.sendMessage (fun _ => Resolved VNull) plain_client
                   (VStr "hello") (VObj o) VUndefined)).1 =
    [Legacy.requestOptions plain_client (VStr "createMessage")
       (VObj {[ "request" :=
                  VObj (Legacy.messageRequest plain_client (VStr "hello")
                          (VObj o)) ]})]
  /\ Legacy.notification (VStr "hello") (VObj o) !! "content"
     = Some (VStr "hello").
Proof.
  destruct (legacy_sendMessage_forces_content (fun _ => Resolved VNull)
              plain_client "hello"
              ({[ "content" := VStr "other" ]} : gmap string value)
              VUndefined eq_refl eq_refl)
    as (Hrequests & _ & Hcontent & _).
  exact (conj Hrequests Hcontent).
Defined.
